(** * Graphton sandbox backends: the backend selector and the filesystem backend

    A shallow embedding of [graphton/core/sandbox_factory.py]
    ([create_sandbox_backend]) and of the filesystem backend exercised by
    [tests/test_filesystem_backend.py], with the properties the
    specification states about them. *)

From Stdlib Require Import ZArith String Ascii List Bool Lia.
From stdpp Require Import gmap strings pretty.

(** ** Python values *)

Module Py.

(** The values a configuration dictionary may hold under a key ([Any] in the
    annotation [dict[str, Any]]).  The selector observes a value in four ways
    only: its class name ([type(v).__name__]), its truth value ([not v]), its
    equality with a string literal ([v == "filesystem"]) and the text an
    f-string renders for it ([f"{v}"]).  [PNone], [PBool], [PInt] and [PStr]
    are the built-in classes; [PObject cls truth text] is an instance of any
    other class (list, tuple, float, a nested dict, a user class ...), given
    by its class name, its truth value and its rendered text; it is not equal
    to any string. *)
Inductive pyval : Type :=
| PNone
| PBool (b : bool)
| PInt (n : Z)
| PStr (s : string)
| PObject (cls : string) (truth : bool) (text : string).

(** The object passed as [config]: a [dict] (string keys, as annotated; a key
    that is not a string is never equal to ["type"] or ["root_dir"]), or a
    value of another class. *)
Inductive pyarg : Type :=
| ArgDict (d : gmap string pyval)
| ArgOther (v : pyval).

(** [type(v).__name__] *)
Definition type_name (v : pyval) : string :=
  match v with
  | PNone => "NoneType"
  | PBool _ => "bool"
  | PInt _ => "int"
  | PStr _ => "str"
  | PObject cls _ _ => cls
  end.

Definition arg_type_name (a : pyarg) : string :=
  match a with
  | ArgDict _ => "dict"
  | ArgOther v => type_name v
  end.

(** [bool(v)], the test behind [not v] and [if v] *)
Definition truthy (v : pyval) : bool :=
  match v with
  | PNone => false
  | PBool b => b
  | PInt n => negb (n =? 0)%Z
  | PStr s => negb (String.eqb s "")
  | PObject _ truth _ => truth
  end.

(** [v == s] for a string literal [s] *)
Definition eq_str (v : pyval) (s : string) : bool :=
  match v with
  | PStr t => String.eqb t s
  | _ => false
  end.

(** [f"{v}"], that is [format(v, "")] *)
Definition format (v : pyval) : string :=
  match v with
  | PNone => "None"
  | PBool true => "True"
  | PBool false => "False"
  | PInt n => pretty n
  | PStr s => s
  | PObject _ _ text => text
  end.

(** Exceptions: the class and the message. *)
Inductive exn_class : Type :=
| ValueError
| TypeError
| AttributeError
| KeyError.

Record exn : Type := Exn { exn_cls : exn_class; exn_msg : string }.

#[global] Instance pyval_eq_dec : EqDecision pyval.
Proof. solve_decision. Defined.

(** A computation reads and may update the object bound to [config], and
    either returns a value or raises. *)
Definition M (A : Type) : Type := pyarg -> (exn + A) * pyarg.

Definition ret {A} (a : A) : M A := fun σ => (inr a, σ).

Definition bind {A B} (m : M A) (k : A -> M B) : M B :=
  fun σ =>
    match m σ with
    | (inl e, σ') => (inl e, σ')
    | (inr a, σ') => k a σ'
    end.

Definition raise {A} (c : exn_class) (msg : string) : M A :=
  fun σ => (inl (Exn c msg), σ).

(** A call into code that does not see [config]: its outcome, a value or an
    exception, becomes the outcome of the computation. *)
Definition call {A} (outcome : exn + A) : M A :=
  fun σ => (outcome, σ).

(** [isinstance(config, dict)] *)
Definition isinstance_dict : M bool :=
  fun σ => (inr (match σ with ArgDict _ => true | ArgOther _ => false end), σ).

(** [type(config).__name__] *)
Definition config_type_name : M string :=
  fun σ => (inr (arg_type_name σ), σ).

(** [config.get(key, dflt)]: a lookup that leaves the dictionary as it is.
    On an object without a [get] attribute the call raises [AttributeError]. *)
Definition config_get (key : string) (dflt : pyval) : M pyval :=
  fun σ =>
    match σ with
    | ArgDict d => (inr (default dflt (d !! key)), σ)
    | ArgOther v =>
        (inl (Exn AttributeError
                ("'" +:+ type_name v +:+ "' object has no attribute 'get'")), σ)
    end.

End Py.

Import Py.

#[global] Instance M_ret : MRet M := @ret.
#[global] Instance M_bind : MBind M := fun A B k m => bind m k.

(** ** The backend object *)

(** Modelled from the spec: the class [FilesystemBackend] of
    [graphton.core.backends], which the tests construct from a root directory
    and which is not part of the sources: an instance holds the root
    directory its operations work in. *)
Record backend : Type := FilesystemBackend { root_dir : pyval }.

(** A constructor for the examples: it builds the backend from a root given
    as a path string and refuses any other root with a [TypeError]. *)
Definition sample_constructor (root : pyval) : exn + backend :=
  match root with
  | PStr _ => inr (FilesystemBackend root)
  | _ =>
      inl (Exn TypeError
             ("expected str, bytes or os.PathLike object, not "
              +:+ type_name root))
  end.

(** ** The backend selector: [create_sandbox_backend] *)

Definition supported_types : list string :=
  ["filesystem"; "modal"; "runloop"; "daytona"; "harbor"].

(** The recognized kinds that have no backend yet, each with the name its
    message opens with. *)
Definition unimplemented_types : list (string * string) :=
  [("modal", "Modal"); ("runloop", "Runloop");
   ("daytona", "Daytona"); ("harbor", "Harbor")].

Definition missing_type_msg : string :=
  "sandbox_config must include 'type' key. " +:+
  "Supported types: filesystem, modal, runloop, daytona, harbor".

Definition coming_soon_msg (name : string) : string :=
  name +:+ " sandbox support coming soon. " +:+
  "For now, use 'filesystem' type for local execution.".

Definition unsupported_msg (backend_type : pyval) : string :=
  "Unsupported sandbox type: " +:+ format backend_type +:+ ". " +:+
  "Supported types: filesystem, modal, runloop, daytona, harbor".

(** [create_sandbox_backend(config)].  The object bound to [config] is the
    state the computation runs on: the result pairs what the call returns or
    raises with that object as the call leaves it.

    The class [FilesystemBackend] that line 70 imports from the [deepagents]
    library is not part of the sources, so the constructor call of line 73,
    [FilesystemBackend(root_dir=root_dir)], is the argument [construct]: for
    each root it gives the instance built (of a type [B]) or the exception
    the constructor raises. *)
Definition create_sandbox_backend {B : Type} (construct : pyval → exn + B)
    : M B :=
  is_dict ← isinstance_dict;
  if negb is_dict then
    name ← config_type_name;
    raise ValueError ("sandbox_config must be a dictionary, got " +:+ name)
  else
    backend_type ← config_get "type" PNone;
    if negb (truthy backend_type) then
      raise ValueError missing_type_msg
    else if eq_str backend_type "filesystem" then
      root ← config_get "root_dir" (PStr ".");
      call (construct root)
    else if eq_str backend_type "modal" then
      raise ValueError (coming_soon_msg "Modal")
    else if eq_str backend_type "runloop" then
      raise ValueError (coming_soon_msg "Runloop")
    else if eq_str backend_type "daytona" then
      raise ValueError (coming_soon_msg "Daytona")
    else if eq_str backend_type "harbor" then
      raise ValueError (coming_soon_msg "Harbor")
    else
      raise ValueError (unsupported_msg backend_type).

(** ** Text helpers *)

(** [needle in s] *)
Fixpoint contains (needle s : string) : bool :=
  String.prefix needle s ||
  match s with
  | EmptyString => false
  | String _ s' => contains needle s'
  end.

(** ** The filesystem backend *)

(** Modelled from the spec: the record [ExecutionResult] of
    [graphton.core.backends.filesystem], which the tests build and read but
    which is not part of the sources: an exit code and the two captured
    streams. *)
Record ExecutionResult : Type :=
  { exit_code : Z; stdout : string; stderr : string }.

(** Modelled from the spec: the directory tree under a backend's root, which
    the methods of [FilesystemBackend] (not part of the sources) act on: the
    regular files by relative path with their text, and the directories. *)
Record tree : Type := Tree { files : gmap string string; dirs : gset string }.

Definition empty_tree : tree := Tree ∅ ∅.

(** The directories above a relative path: ["a"] and ["a/b"] for
    ["a/b/c.txt"], none for ["c.txt"]. *)
Fixpoint parent_dirs_from (seen : string) (path : string) : list string :=
  match path with
  | EmptyString => []
  | String c rest =>
      if Ascii.eqb c "/"%char then
        (if String.eqb seen "" then [] else [seen]) ++
        parent_dirs_from (seen +:+ "/") rest
      else parent_dirs_from (seen +:+ String c "") rest
  end.

Definition parent_dirs (path : string) : list string :=
  parent_dirs_from "" path.

(** Modelled from the spec: [write_file(relative_path, text)] of the absent
    [FilesystemBackend]: it writes the content, creating the parent
    directories as needed, and overwrites what the path held. *)
Definition write_file (t : tree) (relative_path content : string) : tree :=
  {| files := <[relative_path := content]> (files t);
     dirs := dirs t ∪ list_to_set (parent_dirs relative_path) |}.

(** Modelled from the spec: [read_file(relative_path)] of the absent
    [FilesystemBackend]: the full contents of the file at that path; the spec
    does not say what happens when there is no such file ([None] here). *)
Definition read_file (t : tree) (relative_path : string) : option string :=
  files t !! relative_path.

(** Modelled from the spec: [list_files()] of the absent [FilesystemBackend]:
    the relative paths of the files under the root.  The spec leaves open
    what else a listing shows (directories) and in which order; it asks that
    a path written with [write_file] be listed. *)
Definition list_files (t : tree) : list string :=
  elements (dom (files t)).

(** *** Running a command *)

(** What the spawned shell is given: the working directory and the
    environment variables. *)
Record context : Type :=
  { cwd : pyval; environ : gmap string string }.

(** What a spawned process does, as its parent sees it: it exits on its own
    after some seconds with a status and its two output streams, or it never
    exits. *)
Inductive behaviour : Type :=
| Exits (elapsed : nat) (status : Z) (out err : string)
| Hangs.

Definition program : Type := context → string → behaviour.

(** The first word of a command line. *)
Definition command_name (command : string) : string :=
  hd "" (String.words command).

(** Modelled from the spec: the shell the command string is run through.  It
    resolves the command name (built-ins and the search path, [resolve]) and
    runs the program found; a name it cannot resolve makes it exit at once
    with status 127 and a message on its standard error. *)
Definition sh (resolve : string → option program)
    (ctx : context) (command : string) : behaviour :=
  match resolve (command_name command) with
  | Some prog => prog ctx command
  | None =>
      Exits 0 127 "" ("sh: " +:+ command_name command +:+ ": command not found")
  end.

(** What became of the spawned process, and how a call of [execute] ends. *)
Inductive child_state : Type := Reaped | Killed.

Inductive outcome : Type :=
| Returned (r : ExecutionResult) (child : child_state)
| Raised (e : exn)
| Blocked.

Definition timeout_exit_code : Z := 124.

(** A process exceeds a timeout when it has not exited after that long. *)
Definition exceeds (b : behaviour) (timeout : nat) : bool :=
  match b with
  | Exits elapsed _ _ _ => timeout <? elapsed
  | Hangs => true
  end.

(** The call waits for the process and hands back what it left. *)
Definition wait (proc : behaviour) : outcome :=
  match proc with
  | Exits _ status out err =>
      Returned {| exit_code := status; stdout := out; stderr := err |} Reaped
  | Hangs => Blocked
  end.

(** The result of a call whose timeout was exceeded. *)
Definition timed_out (seconds : nat) : ExecutionResult :=
  {| exit_code := timeout_exit_code;
     stdout := "";
     stderr := "Command timed out after " +:+ pretty seconds +:+ " seconds" |}.

(** The process [execute] spawns for a command line: the shell, in the
    backend's root directory, with the caller's environment. *)
Definition spawn (resolve : string → option program)
    (self : backend) (env : gmap string string) (line : string) : behaviour :=
  sh resolve {| cwd := root_dir self; environ := env |} line.

(** Modelled from the spec: [execute(command, timeout)] of the absent
    [FilesystemBackend].  The command string is run through the shell in the
    root directory with the caller's environment; on normal completion the
    result carries the process's exit status and streams; when the timeout is
    exceeded the process is terminated and the result carries exit code 124
    and a message on stderr.  The spec lets the call raise for a malformed
    argument only: a command that is not a string stands for that case.
    Without a timeout the call lasts as long as the process does. *)
Definition execute (resolve : string → option program)
    (self : backend) (env : gmap string string)
    (command : pyval) (timeout : option nat) : outcome :=
  match command with
  | PStr line =>
      let proc := spawn resolve self env line in
      match timeout with
      | Some seconds =>
          if exceeds proc seconds then Returned (timed_out seconds) Killed
          else wait proc
      | None => wait proc
      end
  | _ => Raised (Exn TypeError "command must be a string")
  end.

(** A small shell environment for the examples: the commands [exit N],
    [sleep N] and [true]; every other name is unknown to it. *)
Fixpoint digits_value (acc : nat) (s : string) : option nat :=
  match s with
  | EmptyString => Some acc
  | String c rest =>
      match Ascii.is_nat c with
      | Some d => digits_value (10 * acc + d) rest
      | None => None
      end
  end.

Definition first_argument (command : string) : nat :=
  match String.words command with
  | _ :: a :: _ => default 0 (digits_value 0 a)
  | _ => 0
  end.

Definition sample_resolve (name : string) : option program :=
  if String.eqb name "exit" then
    Some (λ _ line, Exits 0 (Z.of_nat (first_argument line)) "" "")
  else if String.eqb name "sleep" then
    Some (λ _ line, Exits (first_argument line) 0 "" "")
  else if String.eqb name "true" then
    Some (λ _ _, Exits 0 0 "" "")
  else None.

(** * Properties *)

(** ** Text *)

Lemma prefix_app (n a b : string) :
  String.prefix n a = true → String.prefix n (a +:+ b) = true.
Proof.
  revert n. induction a as [|c' a IH]; intros [|c n]; simpl; try done.
  - intros _. by destruct b.
  - destruct (ascii_dec c c'); [apply IH | done].
Qed.

Lemma contains_app_l (n a b : string) :
  contains n a = true → contains n (a +:+ b) = true.
Proof.
  induction a as [|c a IH]; simpl.
  - rewrite orb_false_r. destruct n; [|done]. intros _. by destruct b.
  - intros [H|H]%orb_true_iff; apply orb_true_iff.
    + left. by apply (prefix_app n (String c a) b).
    + right. by apply IH.
Qed.

Lemma contains_app_r (n a b : string) :
  contains n b = true → contains n (a +:+ b) = true.
Proof.
  intros H. induction a as [|c a IH]; simpl; [done|].
  apply orb_true_iff. by right.
Qed.

Lemma prefix_refl (n : string) : String.prefix n n = true.
Proof.
  induction n as [|c n IH]; simpl; [done|]. by destruct (ascii_dec c c).
Qed.

Lemma contains_refl (n : string) : contains n n = true.
Proof.
  destruct n as [|c n]; [done|]. cbn [contains].
  apply orb_true_iff. left. apply prefix_refl.
Qed.

Lemma contains_self_app (n b : string) : contains n (n +:+ b) = true.
Proof.
  apply contains_app_l, contains_refl.
Qed.

Lemma eq_str_true (v : pyval) (s : string) : eq_str v s = true ↔ v = PStr s.
Proof.
  destruct v; simpl; try (split; [done | intros [=]]).
  rewrite String.eqb_eq. split; [by intros -> | by intros [=]].
Qed.

(** ** The selector *)

Ltac run_selector :=
  unfold create_sandbox_backend, mbind, M_bind, bind, mret, M_ret, ret, raise,
    call, isinstance_dict, config_type_name, config_get; simpl.

Ltac in_list := by repeat constructor.

Section Selector.
Context {B : Type}.
Variable construct : pyval → exn + B.


(** On a dictionary, the outcome in terms of the value under ["type"]. *)
Lemma create_sandbox_backend_falsy (d : gmap string pyval) :
  truthy (default PNone (d !! "type")) = false →
  create_sandbox_backend construct (ArgDict d) =
  (inl (Exn ValueError missing_type_msg), ArgDict d).
Proof. intros H. run_selector. by rewrite H. Qed.

Lemma create_sandbox_backend_other (d : gmap string pyval) (v : pyval) :
  d !! "type" = Some v → truthy v = true → (∀ s, v ≠ PStr s) →
  create_sandbox_backend construct (ArgDict d) =
  (inl (Exn ValueError (unsupported_msg v)), ArgDict d).
Proof.
  intros H Hv Hs. run_selector. rewrite H. simpl. rewrite Hv. simpl.
  destruct v as [| ? | ? | s | ? ? ?]; try done. by destruct (Hs s).
Qed.

Lemma create_sandbox_backend_str (d : gmap string pyval) (s : string) :
  d !! "type" = Some (PStr s) → s ≠ "" →
  create_sandbox_backend construct (ArgDict d) =
  (if String.eqb s "filesystem" then
     construct (default (PStr ".") (d !! "root_dir"))
   else if String.eqb s "modal" then inl (Exn ValueError (coming_soon_msg "Modal"))
   else if String.eqb s "runloop" then inl (Exn ValueError (coming_soon_msg "Runloop"))
   else if String.eqb s "daytona" then inl (Exn ValueError (coming_soon_msg "Daytona"))
   else if String.eqb s "harbor" then inl (Exn ValueError (coming_soon_msg "Harbor"))
   else inl (Exn ValueError (unsupported_msg (PStr s))), ArgDict d).
Proof.
  intros H Hs. run_selector. rewrite H. simpl.
  apply String.eqb_neq in Hs. rewrite Hs. simpl.
  repeat (destruct (String.eqb s _); simpl; [done|]). done.
Qed.

(** On the filesystem branch the outcome is the constructor's. *)
Lemma create_sandbox_backend_constructs (d : gmap string pyval) :
  d !! "type" = Some (PStr "filesystem") →
  create_sandbox_backend construct (ArgDict d) =
  (construct (default (PStr ".") (d !! "root_dir")), ArgDict d).
Proof. intros H. by rewrite (create_sandbox_backend_str d "filesystem"). Qed.

(** A truthy value that is none of the five kinds takes the last branch. *)
Lemma create_sandbox_backend_unrecognized (d : gmap string pyval) (v : pyval) :
  d !! "type" = Some v → truthy v = true → v ∉ PStr <$> supported_types →
  create_sandbox_backend construct (ArgDict d)
  = (inl (Exn ValueError (unsupported_msg v)), ArgDict d).
Proof.
  intros H Hv Hk.
  destruct v as [| ? | ? | s | ? ? ?];
    try (by apply create_sandbox_backend_other).
  assert (s ≠ "") as Hs by (by intros ->).
  rewrite (create_sandbox_backend_str d s H Hs).
  assert (∀ k, k ∈ supported_types → String.eqb s k = false) as Hne.
  { intros k Hin. apply String.eqb_neq. intros ->.
    destruct Hk. by apply list_elem_of_fmap_2. }
  rewrite !Hne; [done | set_solver..].
Qed.

(** Off the filesystem branch the selector raises, on one of three paths. *)
Lemma create_sandbox_backend_refused (d : gmap string pyval) :
  d !! "type" ≠ Some (PStr "filesystem") →
  (truthy (default PNone (d !! "type")) = false
   ∧ create_sandbox_backend construct (ArgDict d)
     = (inl (Exn ValueError missing_type_msg), ArgDict d))
  ∨ (∃ kind name, (kind, name) ∈ unimplemented_types
       ∧ d !! "type" = Some (PStr kind)
       ∧ create_sandbox_backend construct (ArgDict d)
         = (inl (Exn ValueError (coming_soon_msg name)), ArgDict d))
  ∨ (∃ v, d !! "type" = Some v ∧ truthy v = true
       ∧ (v ∉ PStr <$> supported_types)
       ∧ create_sandbox_backend construct (ArgDict d)
         = (inl (Exn ValueError (unsupported_msg v)), ArgDict d)).
Proof.
  intros Hne. destruct (truthy (default PNone (d !! "type"))) eqn:Ht.
  - destruct (d !! "type") as [v|] eqn:H; [|done]. simpl in Ht.
    destruct (decide (v ∈ PStr <$> supported_types)) as [Hin|Hout].
    + apply list_elem_of_fmap in Hin as (s & -> & Hin).
      unfold supported_types in Hin.
      apply elem_of_cons in Hin as [-> | Hin]; [by destruct Hne|].
      right. left.
      apply elem_of_cons in Hin as [-> | Hin].
      { exists "modal", "Modal". split; [in_list|]. split; [done|].
        by rewrite (create_sandbox_backend_str d _ H). }
      apply elem_of_cons in Hin as [-> | Hin].
      { exists "runloop", "Runloop". split; [in_list|]. split; [done|].
        by rewrite (create_sandbox_backend_str d _ H). }
      apply elem_of_cons in Hin as [-> | Hin].
      { exists "daytona", "Daytona". split; [in_list|]. split; [done|].
        by rewrite (create_sandbox_backend_str d _ H). }
      apply elem_of_cons in Hin as [-> | Hin].
      { exists "harbor", "Harbor". split; [in_list|]. split; [done|].
        by rewrite (create_sandbox_backend_str d _ H). }
      by apply elem_of_nil in Hin.
    + right. right. exists v. repeat split; try done.
      by apply create_sandbox_backend_unrecognized.
  - left. split; [done|]. by apply create_sandbox_backend_falsy.
Qed.



(** C4: a dictionary without a ['type'] key, or with an empty (falsy) value
    under it, is refused with an error whose message lists the supported
    kinds. *)
Theorem create_sandbox_backend_missing_type (d : gmap string pyval) :
  d !! "type" = None ∨ (∃ v, d !! "type" = Some v ∧ truthy v = false) →
  ∃ e : exn,
    create_sandbox_backend construct (ArgDict d) = (inl e, ArgDict d)
    ∧ exn_cls e = ValueError
    ∧ exn_msg e = missing_type_msg
    ∧ Forall (λ kind, contains kind (exn_msg e) = true) supported_types.
Proof.
  intros H. exists (Exn ValueError missing_type_msg). split.
  - apply create_sandbox_backend_falsy.
    destruct H as [-> | (v & -> & Hv)]; [done | exact Hv].
  - repeat split. by repeat constructor.
Qed.

(** C5: a non-empty ['type'] value that is none of the recognized kinds is
    refused with an "Unsupported sandbox type" error whose message
    enumerates the valid kinds. *)
Theorem create_sandbox_backend_unsupported (d : gmap string pyval) (v : pyval) :
  d !! "type" = Some v →
  truthy v = true →
  v ∉ PStr <$> supported_types →
  ∃ e : exn,
    create_sandbox_backend construct (ArgDict d) = (inl e, ArgDict d)
    ∧ exn_cls e = ValueError
    ∧ exn_msg e = unsupported_msg v
    ∧ String.prefix "Unsupported sandbox type: " (exn_msg e) = true
    ∧ Forall (λ kind, contains kind (exn_msg e) = true) supported_types.
Proof.
  intros H Hv Hk. exists (Exn ValueError (unsupported_msg v)). split.
  - by apply create_sandbox_backend_unrecognized.
  - repeat split.
    + by apply prefix_app.
    + unfold unsupported_msg. simpl.
      repeat constructor; do 3 apply contains_app_r; done.
Qed.

(** C6: each of the four recognized kinds without a backend ('modal',
    'runloop', 'daytona', 'harbor') is refused with an error saying that
    support is coming soon and pointing to the 'filesystem' kind. *)
Theorem create_sandbox_backend_unimplemented
    (d : gmap string pyval) (kind name : string) :
  (kind, name) ∈ unimplemented_types →
  d !! "type" = Some (PStr kind) →
  ∃ e : exn,
    create_sandbox_backend construct (ArgDict d) = (inl e, ArgDict d)
    ∧ exn_cls e = ValueError
    ∧ exn_msg e = coming_soon_msg name
    ∧ String.prefix name (exn_msg e) = true
    ∧ contains "support coming soon" (exn_msg e) = true
    ∧ contains "use 'filesystem' type" (exn_msg e) = true.
Proof.
  intros Hin H. exists (Exn ValueError (coming_soon_msg name)).
  unfold unimplemented_types in Hin.
  repeat (apply elem_of_cons in Hin as [[= -> ->] | Hin];
          [ split; [by rewrite (create_sandbox_backend_str d _ H) by done
                   | by repeat split] | ]).
  by apply elem_of_nil in Hin.
Qed.

(** C7: an input that is not a dictionary is refused with an error about its
    type, whose message names the class of the value received. *)
Theorem create_sandbox_backend_not_dict (v : pyval) :
  ∃ e : exn,
    create_sandbox_backend construct (ArgOther v) = (inl e, ArgOther v)
    ∧ exn_cls e = ValueError
    ∧ exn_msg e = "sandbox_config must be a dictionary, got " +:+ type_name v
    ∧ contains (type_name v) (exn_msg e) = true.
Proof.
  eexists. split; [reflexivity|]. repeat split. cbn [exn_msg].
  apply contains_app_r, contains_refl.
Qed.


(** *** More on the selector *)

Lemma create_sandbox_backend_reads (d1 d2 : gmap string pyval) :
  d1 !! "type" = d2 !! "type" →
  (d1 !! "root_dir" = d2 !! "root_dir")
  ∨ (d1 !! "type" ≠ Some (PStr "filesystem")) →
  fst (create_sandbox_backend construct (ArgDict d1))
  = fst (create_sandbox_backend construct (ArgDict d2)).
Proof.
  intros Ht Hr. run_selector. rewrite <- Ht.
  destruct (truthy _); simpl; [|done].
  destruct (eq_str _ "filesystem") eqn:E; simpl.
  - destruct Hr as [-> | Hr]; [done|].
    destruct (d1 !! "type") as [v|]; simpl in E; [|done].
    apply eq_str_true in E as ->. by destruct Hr.
  - repeat (destruct (eq_str _ _); simpl; [done|]). done.
Qed.

(** The selector reads the keys ['type'] and ['root_dir'] and no other: two
    dictionaries that agree on these two keys get the same outcome, whatever
    else they hold.  Keys the selector does not know are ignored, not
    refused. *)
Theorem create_sandbox_backend_ignores_other_keys (d1 d2 : gmap string pyval) :
  d1 !! "type" = d2 !! "type" →
  d1 !! "root_dir" = d2 !! "root_dir" →
  fst (create_sandbox_backend construct (ArgDict d1))
  = fst (create_sandbox_backend construct (ArgDict d2)).
Proof. intros Ht Hr. apply create_sandbox_backend_reads; auto. Qed.

(** ['root_dir'] is read on the filesystem branch only: when the value under
    ['type'] is not ["filesystem"], the outcome is decided by that value
    alone, and a ['root_dir'] of any kind neither helps nor hurts. *)
Theorem create_sandbox_backend_root_dir_unread (d1 d2 : gmap string pyval) :
  d1 !! "type" = d2 !! "type" →
  d1 !! "type" ≠ Some (PStr "filesystem") →
  fst (create_sandbox_backend construct (ArgDict d1))
  = fst (create_sandbox_backend construct (ArgDict d2)).
Proof. intros Ht Hne. apply create_sandbox_backend_reads; auto. Qed.

(** The kinds the error messages advertise are the kinds the dispatch knows:
    a non-empty ['type'] value is refused as "Unsupported sandbox type"
    exactly when it is none of filesystem, modal, runloop, daytona, harbor
    (the constructor's own errors, if it has any, do not open with these
    words). *)
Theorem create_sandbox_backend_unsupported_iff
    (d : gmap string pyval) (v : pyval) :
  (∀ r e, construct r = inl e →
          String.prefix "Unsupported sandbox type: " (exn_msg e) = false) →
  d !! "type" = Some v →
  truthy v = true →
  (∃ e, fst (create_sandbox_backend construct (ArgDict d)) = inl e
        ∧ String.prefix "Unsupported sandbox type: " (exn_msg e) = true)
  ↔ v ∉ PStr <$> supported_types.
Proof.
  intros Hc H Hv. split.
  - intros (e & He & Hp).
    destruct (decide (d !! "type" = Some (PStr "filesystem"))) as [Hfs|Hne].
    { rewrite (create_sandbox_backend_constructs d Hfs) in He. simpl in He.
      apply Hc in He. by rewrite He in Hp. }
    destruct (create_sandbox_backend_refused d Hne)
      as [[_ E] | [(kind & name & Hin & _ & E) | (v' & H' & _ & Hout & _)]].
    + rewrite E in He. injection He as <-. discriminate Hp.
    + rewrite E in He. injection He as <-.
      unfold unimplemented_types in Hin.
      repeat (apply elem_of_cons in Hin as [[= -> ->] | Hin];
              [discriminate Hp|]).
      by apply elem_of_nil in Hin.
    + rewrite H in H'. by injection H' as <-.
  - intros Hout. exists (Exn ValueError (unsupported_msg v)). split.
    + by rewrite (create_sandbox_backend_unrecognized d v H Hv Hout).
    + by apply prefix_app.
Qed.

(** Whatever goes wrong with a dictionary whose ['type'] is not
    ["filesystem"], the error is a [ValueError] whose message names the
    filesystem kind, the one that can be used. *)
Theorem create_sandbox_backend_error_names_filesystem
    (d : gmap string pyval) (e : exn) :
  d !! "type" ≠ Some (PStr "filesystem") →
  fst (create_sandbox_backend construct (ArgDict d)) = inl e →
  exn_cls e = ValueError ∧ contains "filesystem" (exn_msg e) = true.
Proof.
  intros Hne He.
  destruct (create_sandbox_backend_refused d Hne)
    as [[_ E] | [(kind & name & Hin & _ & E) | (v & _ & _ & _ & E)]];
    rewrite E in He; injection He as <-.
  - done.
  - split; [done|]. cbn [exn_msg]. unfold coming_soon_msg.
    do 2 apply contains_app_r. done.
  - split; [done|]. cbn [exn_msg]. unfold unsupported_msg.
    do 3 apply contains_app_r. done.
Qed.

End Selector.


Lemma create_sandbox_backend_missing_type_witness :
  ∃ e : exn,
    create_sandbox_backend sample_constructor (ArgDict ∅) = (inl e, ArgDict ∅)
    ∧ exn_cls e = ValueError
    ∧ exn_msg e = missing_type_msg
    ∧ Forall (λ kind, contains kind (exn_msg e) = true) supported_types.
Proof.
  apply (create_sandbox_backend_missing_type sample_constructor ∅).
  left. reflexivity.
Defined.

Lemma create_sandbox_backend_unsupported_witness :
  ∃ e : exn,
    create_sandbox_backend sample_constructor
      (ArgDict {["type" := PStr "bogus"]})
    = (inl e, ArgDict {["type" := PStr "bogus"]})
    ∧ exn_cls e = ValueError
    ∧ exn_msg e = unsupported_msg (PStr "bogus")
    ∧ String.prefix "Unsupported sandbox type: " (exn_msg e) = true
    ∧ Forall (λ kind, contains kind (exn_msg e) = true) supported_types.
Proof.
  apply (create_sandbox_backend_unsupported sample_constructor
           {["type" := PStr "bogus"]} (PStr "bogus")).
  - reflexivity.
  - reflexivity.
  - apply (bool_decide_unpack _). vm_compute. exact I.
Defined.

Lemma create_sandbox_backend_unimplemented_witness :
  ∃ e : exn,
    create_sandbox_backend sample_constructor
      (ArgDict {["type" := PStr "modal"]})
    = (inl e, ArgDict {["type" := PStr "modal"]})
    ∧ exn_cls e = ValueError
    ∧ exn_msg e = coming_soon_msg "Modal"
    ∧ String.prefix "Modal" (exn_msg e) = true
    ∧ contains "support coming soon" (exn_msg e) = true
    ∧ contains "use 'filesystem' type" (exn_msg e) = true.
Proof.
  apply (create_sandbox_backend_unimplemented sample_constructor
           {["type" := PStr "modal"]} "modal" "Modal").
  - apply (bool_decide_unpack _). vm_compute. exact I.
  - reflexivity.
Defined.

Lemma create_sandbox_backend_ignores_other_keys_witness :
  fst (create_sandbox_backend sample_constructor
         (ArgDict {["type" := PStr "filesystem"; "root_dir" := PStr "/w";
                    "image" := PStr "python:3.12"; "timeout" := PInt 30]}))
  = fst (create_sandbox_backend sample_constructor
           (ArgDict {["type" := PStr "filesystem"; "root_dir" := PStr "/w"]})).
Proof.
  apply (create_sandbox_backend_ignores_other_keys sample_constructor
           {["type" := PStr "filesystem"; "root_dir" := PStr "/w";
             "image" := PStr "python:3.12"; "timeout" := PInt 30]}
           {["type" := PStr "filesystem"; "root_dir" := PStr "/w"]}).
  - reflexivity.
  - reflexivity.
Defined.

Lemma create_sandbox_backend_root_dir_unread_witness :
  fst (create_sandbox_backend sample_constructor
         (ArgDict {["type" := PStr "modal"; "root_dir" := PInt 7]}))
  = fst (create_sandbox_backend sample_constructor
           (ArgDict {["type" := PStr "modal"]})).
Proof.
  apply (create_sandbox_backend_root_dir_unread sample_constructor
           {["type" := PStr "modal"; "root_dir" := PInt 7]}
           {["type" := PStr "modal"]}).
  - reflexivity.
  - intros H. discriminate H.
Defined.

Lemma sample_constructor_errors (r : pyval) (e : exn) :
  sample_constructor r = inl e →
  String.prefix "Unsupported sandbox type: " (exn_msg e) = false.
Proof. destruct r; intros [= <-]; reflexivity. Defined.

Lemma create_sandbox_backend_unsupported_iff_witness :
  (∃ e, fst (create_sandbox_backend sample_constructor
               (ArgDict {["type" := PStr "docker"]}))
        = inl e
        ∧ String.prefix "Unsupported sandbox type: " (exn_msg e) = true)
  ↔ PStr "docker" ∉ PStr <$> supported_types.
Proof.
  apply (create_sandbox_backend_unsupported_iff sample_constructor
           {["type" := PStr "docker"]} (PStr "docker")).
  - exact sample_constructor_errors.
  - reflexivity.
  - reflexivity.
Defined.

Lemma create_sandbox_backend_error_names_filesystem_witness :
  exn_cls (Exn ValueError (unsupported_msg (PInt 3))) = ValueError
  ∧ contains "filesystem" (exn_msg (Exn ValueError (unsupported_msg (PInt 3))))
    = true.
Proof.
  apply (create_sandbox_backend_error_names_filesystem sample_constructor
           {["type" := PInt 3]} (Exn ValueError (unsupported_msg (PInt 3)))).
  - intros H. discriminate H.
  - reflexivity.
Defined.

(** ** The filesystem backend *)

Section Execute.
Variable resolve : string → option program.
Variable self : backend.
Variable env : gmap string string.

(** A command string never makes [execute] raise. *)
Lemma execute_never_raises (line : string) (timeout : option nat) :
  match execute resolve self env (PStr line) timeout with
  | Raised _ => False
  | _ => True
  end.
Proof.
  unfold execute. destruct timeout as [seconds|].
  - destruct (exceeds _ seconds); [done|]. by destruct (spawn _ _ _ _).
  - by destruct (spawn _ _ _ _).
Qed.

(** A process that exits in time is waited for and its status returned. *)
Lemma execute_completes (line : string) (timeout : option nat)
    (elapsed : nat) (status : Z) (out err : string) :
  spawn resolve self env line = Exits elapsed status out err →
  (∀ seconds, timeout = Some seconds → elapsed ≤ seconds) →
  execute resolve self env (PStr line) timeout =
  Returned {| exit_code := status; stdout := out; stderr := err |} Reaped.
Proof.
  intros H Ht. unfold execute. rewrite H.
  destruct timeout as [seconds|]; [|done]. simpl.
  specialize (Ht seconds eq_refl).
  destruct (Nat.ltb_spec seconds elapsed); [lia | done].
Qed.

(** C2: when the command runs longer than the timeout, [execute] terminates
    the process and returns, without raising, a result with exit code 124
    and a message on stderr saying that the command timed out. *)
Theorem execute_timeout (line : string) (seconds : nat) :
  exceeds (spawn resolve self env line) seconds = true →
  ∃ r : ExecutionResult,
    execute resolve self env (PStr line) (Some seconds) = Returned r Killed
    ∧ exit_code r = 124%Z
    ∧ contains "timed out" (stderr r) = true.
Proof.
  intros H. exists (timed_out seconds). split.
  - unfold execute. by rewrite H.
  - split; [done|]. cbn [stderr timed_out].
    apply (contains_app_l _ "Command timed out after "). done.
Qed.

(** C8: when the command completes on its own (within the timeout, when
    there is one), the result carries the process's real exit status, and
    its two output streams. *)
Theorem execute_exit_status (line : string) (timeout : option nat)
    (elapsed : nat) (status : Z) (out err : string) :
  spawn resolve self env line = Exits elapsed status out err →
  (∀ seconds, timeout = Some seconds → elapsed ≤ seconds) →
  ∃ r : ExecutionResult,
    execute resolve self env (PStr line) timeout = Returned r Reaped
    ∧ exit_code r = status
    ∧ stdout r = out
    ∧ stderr r = err.
Proof.
  intros H Ht. eexists. split; [by apply (execute_completes _ _ elapsed)|].
  done.
Qed.

(** C3: a command string never makes [execute] raise; when the shell cannot
    resolve the command name, [execute] returns a result whose exit code is
    127, hence not zero. *)
Theorem execute_unresolved_command (line : string) (timeout : option nat) :
  (∀ e, execute resolve self env (PStr line) timeout ≠ Raised e)
  ∧ (resolve (command_name line) = None →
     ∃ r : ExecutionResult,
       execute resolve self env (PStr line) timeout = Returned r Reaped
       ∧ exit_code r = 127%Z
       ∧ exit_code r ≠ 0%Z).
Proof.
  split.
  - intros e He. pose proof (execute_never_raises line timeout) as H.
    by rewrite He in H.
  - intros H. eexists. split.
    + apply (execute_completes line timeout 0 127 ""
               ("sh: " +:+ command_name line +:+ ": command not found")).
      * unfold spawn, sh. by rewrite H.
      * intros. lia.
    + done.
Qed.

End Execute.

Lemma execute_timeout_witness :
  ∃ r : ExecutionResult,
    execute sample_resolve (FilesystemBackend (PStr "/tmp/ws")) ∅
      (PStr "sleep 10") (Some 1) = Returned r Killed
    ∧ exit_code r = 124%Z
    ∧ contains "timed out" (stderr r) = true.
Proof.
  apply (execute_timeout sample_resolve (FilesystemBackend (PStr "/tmp/ws")) ∅
           "sleep 10" 1).
  reflexivity.
Defined.

Lemma execute_exit_status_witness :
  ∃ r : ExecutionResult,
    execute sample_resolve (FilesystemBackend (PStr "/tmp/ws")) ∅
      (PStr "exit 42") None = Returned r Reaped
    ∧ exit_code r = 42%Z
    ∧ stdout r = ""
    ∧ stderr r = "".
Proof.
  apply (execute_exit_status sample_resolve (FilesystemBackend (PStr "/tmp/ws")) ∅
           "exit 42" None 0 42 "" "").
  - reflexivity.
  - intros seconds H. discriminate H.
Defined.

Lemma execute_unresolved_command_witness :
  ∃ r : ExecutionResult,
    execute sample_resolve (FilesystemBackend (PStr "/tmp/ws")) ∅
      (PStr "nonexistent_command_xyz123") None = Returned r Reaped
    ∧ exit_code r = 127%Z
    ∧ exit_code r ≠ 0%Z.
Proof.
  apply (execute_unresolved_command sample_resolve
           (FilesystemBackend (PStr "/tmp/ws")) ∅
           "nonexistent_command_xyz123" None).
  reflexivity.
Defined.

(** *** Files *)

Lemma read_write_file (t : tree) (path content : string) :
  read_file (write_file t path content) path = Some content.
Proof. unfold read_file, write_file. simpl. apply lookup_insert_eq. Qed.

Lemma read_write_file_other (t : tree) (path path' content : string) :
  path ≠ path' →
  read_file (write_file t path content) path' = read_file t path'.
Proof.
  intros H. unfold read_file, write_file. simpl. by apply lookup_insert_ne.
Qed.



(** ** Examples *)

(** The selector on the configurations of the docstring and of the spec. *)
Example selector_default_root :
  create_sandbox_backend sample_constructor (ArgDict {["type" := PStr "filesystem"]})
  = (inr (FilesystemBackend (PStr ".")),
     ArgDict {["type" := PStr "filesystem"]}).
Proof. reflexivity. Qed.

(** The constructor's own refusal of a root passes through the selector. *)
Example selector_root_not_a_path :
  fst (create_sandbox_backend sample_constructor
         (ArgDict {["type" := PStr "filesystem"; "root_dir" := PInt 7]}))
  = inl (Exn TypeError "expected str, bytes or os.PathLike object, not int").
Proof. reflexivity. Qed.

Example selector_empty_dict :
  fst (create_sandbox_backend sample_constructor (ArgDict ∅))
  = inl (Exn ValueError
           "sandbox_config must include 'type' key. Supported types: filesystem, modal, runloop, daytona, harbor").
Proof. reflexivity. Qed.

Example selector_empty_string :
  fst (create_sandbox_backend sample_constructor (ArgDict {["type" := PStr ""]}))
  = inl (Exn ValueError missing_type_msg).
Proof. reflexivity. Qed.

Example selector_zero :
  fst (create_sandbox_backend sample_constructor (ArgDict {["type" := PInt 0]}))
  = inl (Exn ValueError missing_type_msg).
Proof. reflexivity. Qed.

Example selector_bogus :
  fst (create_sandbox_backend sample_constructor (ArgDict {["type" := PStr "bogus"]}))
  = inl (Exn ValueError
           "Unsupported sandbox type: bogus. Supported types: filesystem, modal, runloop, daytona, harbor").
Proof. reflexivity. Qed.

Example selector_number :
  fst (create_sandbox_backend sample_constructor (ArgDict {["type" := PInt 5]}))
  = inl (Exn ValueError
           "Unsupported sandbox type: 5. Supported types: filesystem, modal, runloop, daytona, harbor").
Proof. vm_compute. reflexivity. Qed.

Example selector_upper_case :
  fst (create_sandbox_backend sample_constructor (ArgDict {["type" := PStr "Filesystem"]}))
  = inl (Exn ValueError (unsupported_msg (PStr "Filesystem"))).
Proof. reflexivity. Qed.

Example selector_harbor :
  fst (create_sandbox_backend sample_constructor (ArgDict {["type" := PStr "harbor"]}))
  = inl (Exn ValueError
           "Harbor sandbox support coming soon. For now, use 'filesystem' type for local execution.").
Proof. reflexivity. Qed.

Example selector_list :
  create_sandbox_backend sample_constructor (ArgOther (PObject "list" false "[]"))
  = (inl (Exn ValueError "sandbox_config must be a dictionary, got list"),
     ArgOther (PObject "list" false "[]")).
Proof. reflexivity. Qed.

Example selector_none :
  fst (create_sandbox_backend sample_constructor (ArgOther PNone))
  = inl (Exn ValueError "sandbox_config must be a dictionary, got NoneType").
Proof. reflexivity. Qed.

(** The guard on the class of [config] is what keeps [config.get] safe. *)
Example get_on_a_string :
  fst (config_get "type" PNone (ArgOther (PStr "filesystem")))
  = inl (Exn AttributeError "'str' object has no attribute 'get'").
Proof. reflexivity. Qed.

(** The backend on the commands of the test suite. *)
Example execute_sleep_within_timeout :
  execute sample_resolve (FilesystemBackend (PStr "/tmp/ws")) ∅
    (PStr "sleep 1") (Some 10)
  = Returned {| exit_code := 0; stdout := ""; stderr := "" |} Reaped.
Proof. reflexivity. Qed.

Example execute_sleep_timeout :
  execute sample_resolve (FilesystemBackend (PStr "/tmp/ws")) ∅
    (PStr "sleep 10") (Some 1)
  = Returned {| exit_code := 124; stdout := "";
                stderr := "Command timed out after 1 seconds" |} Killed.
Proof. vm_compute. reflexivity. Qed.

Example execute_unknown :
  execute sample_resolve (FilesystemBackend (PStr "/tmp/ws")) ∅
    (PStr "nonexistent_command_xyz123") (Some 5)
  = Returned {| exit_code := 127; stdout := "";
                stderr := "sh: nonexistent_command_xyz123: command not found" |}
             Reaped.
Proof. reflexivity. Qed.

Example execute_not_a_string :
  execute sample_resolve (FilesystemBackend (PStr "/tmp/ws")) ∅ (PInt 3) None
  = Raised (Exn TypeError "command must be a string").
Proof. reflexivity. Qed.

Example parent_dirs_nested : parent_dirs "a/b/c.txt" = ["a"; "a/b"].
Proof. reflexivity. Qed.

Example list_files_nested :
  list_files (write_file empty_tree "sub/x.txt" "hi") = ["sub/x.txt"].
Proof. vm_compute. reflexivity. Qed.

Example overwrite :
  read_file (write_file (write_file empty_tree "a.txt" "one") "a.txt" "two")
    "a.txt"
  = Some "two".
Proof. apply read_write_file. Qed.
